(** * Texture enumerations and texel-size helpers

    A shallow embedding of [Graphics/TextureEnums.h] of the Rubbish Rush
    engine: the strongly typed wrappers around OpenGL's texture constants and
    the five [constexpr] helpers that derive component sizes, component
    counts, texel sizes and default formats from them.

    Conventions.
    - A C++ [enum class E : GLint] is a 32-bit integer with named values; an
      object of type [E] may hold any value of the underlying type, so [E] is
      embedded as a record around the raw [Z] and a [switch] over it compares
      raw values.
    - [size_t] is the 64-bit unsigned type of the engine's x64 build; its
      arithmetic is written with the wrap-around spelled out.
    - The helpers report through the logging macros and then carry on.  The
      logger is a process-wide object, so the helpers are embedded in a small
      state monad [Logged] over the logger's content: every call receives the
      log as it stands and hands back the log it leaves behind. *)

From Stdlib Require Import Bool ZArith List String Lia Permutation.
Import ListNotations.

Local Open Scope bool_scope.
Local Open Scope Z_scope.

(** ** OpenGL constants

    [glad/glad.h] is a generated third-party header; the values below are the ones the OpenGL registry fixes
    for these names. *)
Module GL.

Definition NONE : Z := 0.
Definition DEPTH_COMPONENT : Z := 0x1902.
Definition DEPTH_STENCIL : Z := 0x84F9.

Definition R8 : Z := 0x8229.
Definition R16 : Z := 0x822A.
Definition RG8 : Z := 0x822B.
Definition RGB8 : Z := 0x8051.
Definition SRGB8 : Z := 0x8C41.
Definition RGB10 : Z := 0x8052.
Definition RGB16 : Z := 0x8054.
Definition RGB32F : Z := 0x8815.
Definition RGBA8 : Z := 0x8058.
Definition SRGB8_ALPHA8 : Z := 0x8C43.
Definition RGBA16 : Z := 0x805B.
Definition RGBA32F : Z := 0x8814.

Definition RED : Z := 0x1903.
Definition RG : Z := 0x8227.
Definition RGB : Z := 0x1907.
Definition SRGB : Z := 0x8C40.
Definition BGR : Z := 0x80E0.
Definition RGBA : Z := 0x1908.
Definition BGRA : Z := 0x80E1.

Definition BYTE : Z := 0x1400.
Definition UNSIGNED_BYTE : Z := 0x1401.
Definition SHORT : Z := 0x1402.
Definition UNSIGNED_SHORT : Z := 0x1403.
Definition INT : Z := 0x1404.
Definition UNSIGNED_INT : Z := 0x1405.
Definition FLOAT : Z := 0x1406.

End GL.

(** ** Machine integers *)

(** [size_t]: 64-bit, unsigned. *)
Definition size_t_modulus : Z := 2 ^ 64.

(** The conversion the usual arithmetic conversions apply to the [GLint]
    operand of [size_t * GLint]. *)
Definition size_t_of_GLint (i : Z) : Z := i mod size_t_modulus.

(** Unsigned multiplication, reduced modulo [2 ^ 64]. *)
Definition size_t_mul (a b : Z) : Z := (a * b) mod size_t_modulus.

(** ** Enumerations *)

(** [ENUM(InternalFormat, GLint, ...)] *)
Module InternalFormat.

Record t : Set := of_raw { raw : Z }.

Definition Unknown : t := of_raw GL.NONE.
Definition Depth : t := of_raw GL.DEPTH_COMPONENT.
Definition DepthStencil : t := of_raw GL.DEPTH_STENCIL.
Definition R8 : t := of_raw GL.R8.
Definition R16 : t := of_raw GL.R16.
Definition RG8 : t := of_raw GL.RG8.
Definition RGB8 : t := of_raw GL.RGB8.
Definition SRGB : t := of_raw GL.SRGB8.
Definition RGB10 : t := of_raw GL.RGB10.
Definition RGB16 : t := of_raw GL.RGB16.
Definition RGB32F : t := of_raw GL.RGB32F.
Definition RGBA8 : t := of_raw GL.RGBA8.
Definition SRGBA : t := of_raw GL.SRGB8_ALPHA8.
Definition RGBA16 : t := of_raw GL.RGBA16.
Definition RGB32AF : t := of_raw GL.RGBA32F.

End InternalFormat.

(** [ENUM(PixelFormat, GLint, ...)]: the layout of the input pixel data. *)
Module PixelFormat.

Record t : Set := of_raw { raw : Z }.

Definition Unknown : t := of_raw GL.NONE.
Definition Red : t := of_raw GL.RED.
Definition RG : t := of_raw GL.RG.
Definition RGB : t := of_raw GL.RGB.
Definition SRGB : t := of_raw GL.SRGB.
Definition BGR : t := of_raw GL.BGR.
Definition RGBA : t := of_raw GL.RGBA.
Definition BGRA : t := of_raw GL.BGRA.
Definition Depth : t := of_raw GL.DEPTH_COMPONENT.
Definition DepthStencil : t := of_raw GL.DEPTH_STENCIL.

Definition eqb (a b : t) : bool := raw a =? raw b.

Definition defined : list t :=
  [Unknown; Red; RG; RGB; SRGB; BGR; RGBA; BGRA; Depth; DepthStencil].

End PixelFormat.

(** [ENUM(PixelType, GLint, ...)]: the type of each component of the pixel
    data. *)
Module PixelType.

Record t : Set := of_raw { raw : Z }.

Definition UByte : t := of_raw GL.UNSIGNED_BYTE.
Definition Byte : t := of_raw GL.BYTE.
Definition UShort : t := of_raw GL.UNSIGNED_SHORT.
Definition Short : t := of_raw GL.SHORT.
Definition UInt : t := of_raw GL.UNSIGNED_INT.
Definition Int : t := of_raw GL.INT.
Definition Float : t := of_raw GL.FLOAT.

Definition eqb (a b : t) : bool := raw a =? raw b.

Definition defined : list t := [UByte; Byte; UShort; Short; UInt; Int; Float].

End PixelType.

(** ** Diagnostics *)

(** What a logging macro leaves behind: the format string and the argument
    that is spliced into it. *)
Inductive Diagnostic : Set :=
| AssertFailure (message : string) (arg : Z)
| Warning (message : string) (arg : Z).

(** The content of the logger: what has been reported so far, oldest
    first. *)
Definition Logger : Set := list Diagnostic.

(** A computation that may report: from the log as it finds it to its value
    and the log as it leaves it. *)
Definition Logged (A : Type) : Type := Logger -> A * Logger.

Definition ret {A : Type} (a : A) : Logged A := fun log => (a, log).

Definition bind {A B : Type} (m : Logged A) (k : A -> Logged B) : Logged B :=
  fun log => let '(a, log1) := m log in k a log1.

(** Appends one diagnostic to the log. *)
Definition report (d : Diagnostic) : Logged unit :=
  fun log => (tt, log ++ [d]).

(** The value [m] returns when it starts from [log]. *)
Definition value {A : Type} (m : Logged A) (log : Logger) : A := fst (m log).

(** What [m] reports when it starts from an empty log. *)
Definition reported {A : Type} (m : Logged A) : list Diagnostic := snd (m []).

(** [m] returns [v] and reports [ds], whatever has been reported before. *)
Definition returns {A : Type} (m : Logged A) (v : A) (ds : list Diagnostic)
  : Prop :=
  forall log : Logger, m log = (v, log ++ ds).

Declare Scope logged_scope.
Delimit Scope logged_scope with logged.

Notation "x <- m ;; k" := (bind m (fun x => k))
  (at level 61, m at next level, right associativity) : logged_scope.
Notation "m ;;; k" := (bind m (fun _ => k))
  (at level 61, right associativity) : logged_scope.

Local Open Scope logged_scope.

(** Modelled from the spec: [LOG_ASSERT] of [Logging.h], which is not among
    the sources.  A failed assertion is reported "via an assertion-style
    diagnostic" and the caller's best-effort value "is returned so execution
    can continue". *)
Definition LOG_ASSERT (condition : bool) (message : string) (arg : Z)
  : Logged unit :=
  if condition then ret tt else report (AssertFailure message arg).

(** Modelled from the spec: [LOG_WARN] of [Logging.h], which is not among the
    sources.  The condition is "reported via a warning-level diagnostic", it
    is "not fatal", and the sentinel value is returned. *)
Definition LOG_WARN (condition : bool) (message : string) (arg : Z)
  : Logged unit :=
  if condition then ret tt else report (Warning message arg).

(** ** The derivation functions *)

(** Gets the size of a single component in the given format, in bytes. *)
Definition GetTexelComponentSize (type : PixelType.t) : Logged Z :=
  if PixelType.eqb type PixelType.UByte || PixelType.eqb type PixelType.Byte
  then ret 1
  else if PixelType.eqb type PixelType.UShort
          || PixelType.eqb type PixelType.Short
  then ret 2
  else if PixelType.eqb type PixelType.Int || PixelType.eqb type PixelType.UInt
  then ret 4
  else LOG_ASSERT false "Unknown type: {}" (PixelType.raw type) ;;; ret 0.

Definition GetInternalFormatForChannels8 (numChannels : Z)
  : Logged InternalFormat.t :=
  if numChannels =? 1 then ret InternalFormat.R8
  else if numChannels =? 2 then ret InternalFormat.RG8
  else if numChannels =? 3 then ret InternalFormat.RGB8
  else if numChannels =? 4 then ret InternalFormat.RGBA8
  else LOG_WARN false "Unsupported texture format with {0} channels"
         numChannels ;;;
       ret InternalFormat.Unknown.

Definition GetPixelFormatForChannels (numChannels : Z) : Logged PixelFormat.t :=
  if numChannels =? 1 then ret PixelFormat.Red
  else if numChannels =? 2 then ret PixelFormat.RG
  else if numChannels =? 3 then ret PixelFormat.RGB
  else if numChannels =? 4 then ret PixelFormat.RGBA
  else LOG_WARN false "Unsupported texture format with {0} channels"
         numChannels ;;;
       ret PixelFormat.Unknown.

(** Gets the number of components in a given pixel format. *)
Definition GetTexelComponentCount (format : PixelFormat.t) : Logged Z :=
  if PixelFormat.eqb format PixelFormat.Depth
     || PixelFormat.eqb format PixelFormat.DepthStencil
     || PixelFormat.eqb format PixelFormat.Red
  then ret 1
  else if PixelFormat.eqb format PixelFormat.RG
  then ret 2
  else if PixelFormat.eqb format PixelFormat.RGB
          || PixelFormat.eqb format PixelFormat.BGR
  then ret 3
  else if PixelFormat.eqb format PixelFormat.RGBA
          || PixelFormat.eqb format PixelFormat.BGRA
  then ret 4
  else LOG_ASSERT false "Unknown format: {}" (PixelFormat.raw format) ;;; ret 0.

(** Gets the number of bytes needed to represent a single texel of the given
    format and type.  C++ leaves the order of the two calls open; the
    embedding runs the left operand first, and statements about the
    diagnostics of [GetTexelSize] are made up to reordering. *)
Definition GetTexelSize (format : PixelFormat.t) (type : PixelType.t)
  : Logged Z :=
  size <- GetTexelComponentSize type ;;
  count <- GetTexelComponentCount format ;;
  ret (size_t_mul size (size_t_of_GLint count)).

(** Two calls of one function on one argument, one after the other. *)
Definition call_twice {A B : Type} (f : A -> Logged B) (x : A)
  : Logged (B * B) :=
  r1 <- f x ;;
  r2 <- f x ;;
  ret (r1, r2).

(** [f] is deterministic when the value of a call depends on the argument
    alone, not on what the logger holds, and when the second of two calls in a
    row, which finds the log the first one left, returns what the first
    returned. *)
Definition deterministic {A B : Type} (f : A -> Logged B) : Prop :=
  forall (x : A) (log log' : Logger),
    value (f x) log = value (f x) log'
    /\ fst (value (call_twice f x) log) = snd (value (call_twice f x) log).

(** ** Case labels and evaluation order *)



(** [GetTexelSize] as a compiler runs it that evaluates the right operand of
    [GetTexelComponentSize(type) * GetTexelComponentCount(format)] first. *)
Definition GetTexelSize_count_first (format : PixelFormat.t)
  (type : PixelType.t) : Logged Z :=
  count <- GetTexelComponentCount format ;;
  size <- GetTexelComponentSize type ;;
  ret (size_t_mul size (size_t_of_GLint count)).

(** ** Case analysis on a [switch] *)

(** Splits on every comparison of the scrutinee [r] with a case label, most
    recent first, and evaluates the arms. *)
Ltac switch_on r :=
  repeat match goal with
         | |- context [Z.eqb r ?c] =>
             destruct (Z.eqb_spec r c) as [-> | ?]; cbn
         end.

Ltac unfold_helpers :=
  cbv [GetTexelSize GetTexelComponentSize GetTexelComponentCount
       GetInternalFormatForChannels8 GetPixelFormatForChannels
       PixelType.eqb PixelFormat.eqb
       PixelType.raw PixelFormat.raw InternalFormat.raw
       PixelType.UByte PixelType.Byte PixelType.UShort PixelType.Short
       PixelType.UInt PixelType.Int PixelType.Float
       PixelFormat.Unknown PixelFormat.Red PixelFormat.RG PixelFormat.RGB
       PixelFormat.SRGB PixelFormat.BGR PixelFormat.RGBA PixelFormat.BGRA
       PixelFormat.Depth PixelFormat.DepthStencil
       GL.NONE GL.DEPTH_COMPONENT GL.DEPTH_STENCIL GL.RED GL.RG GL.RGB GL.SRGB
       GL.BGR GL.RGBA GL.BGRA GL.BYTE GL.UNSIGNED_BYTE GL.SHORT
       GL.UNSIGNED_SHORT GL.INT GL.UNSIGNED_INT GL.FLOAT].

(** Closes a goal [returns m v ds] for a call on a literal argument. *)
Ltac returns_by_evaluation :=
  intro; unfold_helpers; cbn; rewrite ?app_nil_r; reflexivity.

(** * Properties *)

(** ** The [Logged] monad *)

Lemma returns_ret {A : Type} (a : A) : returns (ret a) a [].
Proof. intro log. unfold ret. now rewrite app_nil_r. Qed.

Lemma returns_report (d : Diagnostic) : returns (report d) tt [d].
Proof. intro log. reflexivity. Qed.

Lemma returns_bind {A B : Type} (m : Logged A) (k : A -> Logged B)
  (a : A) (b : B) (ds1 ds2 : list Diagnostic) :
  returns m a ds1 -> returns (k a) b ds2 -> returns (bind m k) b (ds1 ++ ds2).
Proof.
  intros Hm Hk log. unfold bind. rewrite Hm, Hk. now rewrite app_assoc.
Qed.

(** A computation that [returns] does so with the value and the diagnostics
    of its run from the empty log. *)
Lemma returns_value {A : Type} (m : Logged A) (v : A) (ds : list Diagnostic) :
  returns m v ds -> forall log : Logger, value m log = v.
Proof. intros H log. unfold value. now rewrite H. Qed.

Lemma returns_reported {A : Type} (m : Logged A) (v : A)
  (ds : list Diagnostic) :
  returns m v ds -> reported m = ds.
Proof. intros H. unfold reported. now rewrite H. Qed.

(** Two calls in a row of a function that [returns]. *)
Lemma returns_call_twice {A B : Type} (f : A -> Logged B) (x : A)
  (v : B) (ds : list Diagnostic) :
  returns (f x) v ds -> returns (call_twice f x) (v, v) (ds ++ ds).
Proof.
  intro H. unfold call_twice.
  apply returns_bind with (a := v); [exact H |].
  rewrite <- (app_nil_r ds).
  apply returns_bind with (a := v); [exact H |].
  apply returns_ret.
Qed.

Lemma returns_deterministic {A B : Type} (f : A -> Logged B) :
  (forall x : A, exists v ds, returns (f x) v ds) -> deterministic f.
Proof.
  intros H x log log'. destruct (H x) as (v & ds & Hx). split.
  - now rewrite !(returns_value _ _ _ Hx).
  - now rewrite (returns_value _ _ _ (returns_call_twice f x v ds Hx)).
Qed.

(** ** What each helper does to the log *)

(** Each helper returns a value that depends on its argument alone, and all
    it does to the log is append what it reports. *)
Lemma GetTexelComponentSize_returns (type : PixelType.t) :
  returns (GetTexelComponentSize type)
    (value (GetTexelComponentSize type) [])
    (reported (GetTexelComponentSize type)).
Proof.
  destruct type as [r]. intro log. unfold value, reported. unfold_helpers.
  switch_on r; now rewrite ?app_nil_r.
Qed.

Lemma GetTexelComponentCount_returns (format : PixelFormat.t) :
  returns (GetTexelComponentCount format)
    (value (GetTexelComponentCount format) [])
    (reported (GetTexelComponentCount format)).
Proof.
  destruct format as [r]. intro log. unfold value, reported. unfold_helpers.
  switch_on r; now rewrite ?app_nil_r.
Qed.

Lemma GetInternalFormatForChannels8_returns (numChannels : Z) :
  returns (GetInternalFormatForChannels8 numChannels)
    (value (GetInternalFormatForChannels8 numChannels) [])
    (reported (GetInternalFormatForChannels8 numChannels)).
Proof.
  intro log. unfold value, reported. unfold_helpers.
  switch_on numChannels; now rewrite ?app_nil_r.
Qed.

Lemma GetPixelFormatForChannels_returns (numChannels : Z) :
  returns (GetPixelFormatForChannels numChannels)
    (value (GetPixelFormatForChannels numChannels) [])
    (reported (GetPixelFormatForChannels numChannels)).
Proof.
  intro log. unfold value, reported. unfold_helpers.
  switch_on numChannels; now rewrite ?app_nil_r.
Qed.

(** [GetTexelSize] returns the wrapped product of the two lookups and reports
    what they report, the size lookup's diagnostics first. *)
Lemma GetTexelSize_returns (format : PixelFormat.t) (type : PixelType.t) :
  returns (GetTexelSize format type)
    (size_t_mul (value (GetTexelComponentSize type) [])
       (size_t_of_GLint (value (GetTexelComponentCount format) [])))
    (reported (GetTexelComponentSize type)
     ++ reported (GetTexelComponentCount format)).
Proof.
  unfold GetTexelSize.
  eapply returns_bind; [apply GetTexelComponentSize_returns |].
  rewrite <- (app_nil_r (reported (GetTexelComponentCount format))).
  eapply returns_bind; [apply GetTexelComponentCount_returns |].
  apply returns_ret.
Qed.

(** ** Ranges of the two lookups *)

(** A component is 1, 2 or 4 bytes wide, or 0 when the type has no case. *)
Lemma GetTexelComponentSize_values (type : PixelType.t) (log : Logger) :
  In (value (GetTexelComponentSize type) log) [0; 1; 2; 4].
Proof.
  destruct type as [r]. unfold value. unfold_helpers. switch_on r; tauto.
Qed.

(** A format has 1 to 4 components, or 0 when the format has no case. *)
Lemma GetTexelComponentCount_values (format : PixelFormat.t) (log : Logger) :
  In (value (GetTexelComponentCount format) log) [0; 1; 2; 3; 4].
Proof.
  destruct format as [r]. unfold value. unfold_helpers. switch_on r; tauto.
Qed.

(** On the values the two lookups take, neither the conversion nor the
    multiplication wraps. *)
Lemma size_t_mul_small (size count : Z) :
  In size [0; 1; 2; 4] -> In count [0; 1; 2; 3; 4] ->
  size_t_mul size (size_t_of_GLint count) = size * count.
Proof.
  unfold size_t_mul, size_t_of_GLint, size_t_modulus. cbn [In].
  intros Hs Hc.
  rewrite (Z.mod_small count) by lia.
  apply Z.mod_small. nia.
Qed.

(** The value of [GetTexelSize], from any log, is the plain product of the
    values of the two lookups. *)
Lemma GetTexelSize_value (format : PixelFormat.t) (type : PixelType.t)
  (log : Logger) :
  value (GetTexelSize format type) log
  = value (GetTexelComponentSize type) log
    * value (GetTexelComponentCount format) log.
Proof.
  rewrite (returns_value _ _ _ (GetTexelSize_returns format type)).
  rewrite (returns_value _ _ _ (GetTexelComponentSize_returns type) log).
  rewrite (returns_value _ _ _ (GetTexelComponentCount_returns format) log).
  apply size_t_mul_small.
  - apply GetTexelComponentSize_values.
  - apply GetTexelComponentCount_values.
Qed.

(** ** Component sizes *)

(** C1.  The seven defined pixel types UByte, Byte, UShort, Short, UInt, Int
    and Float are meant to have component sizes 1, 1, 2, 2, 4, 4 and 4.  The
    first six do.  The [switch] has no case for [PixelType::Float]: it takes
    the default arm, fails the assertion and returns 0, not 4. *)
Theorem GetTexelComponentSize_defined_types :
  returns (GetTexelComponentSize PixelType.UByte) 1 []
  /\ returns (GetTexelComponentSize PixelType.Byte) 1 []
  /\ returns (GetTexelComponentSize PixelType.UShort) 2 []
  /\ returns (GetTexelComponentSize PixelType.Short) 2 []
  /\ returns (GetTexelComponentSize PixelType.UInt) 4 []
  /\ returns (GetTexelComponentSize PixelType.Int) 4 []
  /\ returns (GetTexelComponentSize PixelType.Float) 0
       [AssertFailure "Unknown type: {}" GL.FLOAT]
  /\ map (fun type => value (GetTexelComponentSize type) []) PixelType.defined
     = [1; 1; 2; 2; 4; 4; 0]
  /\ (forall log : Logger,
         value (GetTexelComponentSize PixelType.Float) log <> 4).
Proof.
  repeat apply conj; try returns_by_evaluation.
  - reflexivity.
  - intro log. cbn. discriminate.
Qed.

(** ** Component counts *)

(** C2.  Each of the nine defined pixel formats other than Unknown is meant
    to have its component count returned.  Red, Depth and DepthStencil give
    1, RG gives 2, RGB and BGR give 3, RGBA and BGRA give 4.  The [switch] has
    no case for [PixelFormat::SRGB]: it takes the default arm, fails the
    assertion with "Unknown format" and returns 0. *)
Theorem GetTexelComponentCount_defined_formats :
  returns (GetTexelComponentCount PixelFormat.Red) 1 []
  /\ returns (GetTexelComponentCount PixelFormat.Depth) 1 []
  /\ returns (GetTexelComponentCount PixelFormat.DepthStencil) 1 []
  /\ returns (GetTexelComponentCount PixelFormat.RG) 2 []
  /\ returns (GetTexelComponentCount PixelFormat.RGB) 3 []
  /\ returns (GetTexelComponentCount PixelFormat.BGR) 3 []
  /\ returns (GetTexelComponentCount PixelFormat.RGBA) 4 []
  /\ returns (GetTexelComponentCount PixelFormat.BGRA) 4 []
  /\ returns (GetTexelComponentCount PixelFormat.SRGB) 0
       [AssertFailure "Unknown format: {}" GL.SRGB]
  /\ map (fun format => value (GetTexelComponentCount format) [])
       PixelFormat.defined
     = [0; 1; 2; 3; 0; 3; 4; 4; 1; 1].
Proof.
  repeat apply conj; try returns_by_evaluation.
  reflexivity.
Qed.

(** ** Texel sizes *)

(** C3.  Of the three example evaluations, [GetTexelSize(RGBA, UByte)] is 4
    and [GetTexelSize(Red, UShort)] is 2; [GetTexelSize(RGB, Float)] is 0, not
    12, because the component size of [Float] comes out as 0. *)
Theorem GetTexelSize_examples :
  returns (GetTexelSize PixelFormat.RGBA PixelType.UByte) 4 []
  /\ returns (GetTexelSize PixelFormat.Red PixelType.UShort) 2 []
  /\ returns (GetTexelSize PixelFormat.RGB PixelType.Float) 0
       [AssertFailure "Unknown type: {}" GL.FLOAT]
  /\ (forall log : Logger,
         value (GetTexelSize PixelFormat.RGB PixelType.Float) log <> 12).
Proof.
  repeat apply conj; try returns_by_evaluation.
  intro log. cbn. discriminate.
Qed.

(** C6.  For every pixel format and every pixel type, and whatever the log
    holds, the value of [GetTexelSize] is the component size of the type times
    the component count of the format (the plain product: nothing wraps), and
    what it reports is what the two lookups report, nothing of its own. *)
Theorem GetTexelSize_is_product (format : PixelFormat.t) (type : PixelType.t)
  (log : Logger) :
  value (GetTexelSize format type) log
  = value (GetTexelComponentSize type) log
    * value (GetTexelComponentCount format) log
  /\ exists ds : list Diagnostic,
      GetTexelSize format type log
      = (value (GetTexelSize format type) log, log ++ ds)
      /\ Permutation ds
           (reported (GetTexelComponentSize type)
            ++ reported (GetTexelComponentCount format)).
Proof.
  split.
  - apply GetTexelSize_value.
  - eexists. split; [| apply Permutation_refl].
    pose proof (GetTexelSize_returns format type) as H.
    rewrite (returns_value _ _ _ H). apply H.
Qed.

(** C10.  For every pixel format and every pixel type, defined or not,
    [GetTexelSize] returns a value between 0 and 16: it is the product of the
    component size of the type, which is among 0, 1, 2, 4, and the component
    count of the format, which is among 0, 1, 2, 3, 4. *)
Theorem GetTexelSize_bounds (format : PixelFormat.t) (type : PixelType.t)
  (log : Logger) :
  0 <= value (GetTexelSize format type) log <= 16
  /\ value (GetTexelSize format type) log
     = value (GetTexelComponentSize type) log
       * value (GetTexelComponentCount format) log
  /\ In (value (GetTexelComponentSize type) log) [0; 1; 2; 4]
  /\ In (value (GetTexelComponentCount format) log) [0; 1; 2; 3; 4].
Proof.
  pose proof (GetTexelComponentSize_values type log) as Hs.
  pose proof (GetTexelComponentCount_values format log) as Hc.
  pose proof (GetTexelSize_value format type log) as Hv.
  repeat split; trivial; rewrite Hv; cbn [In] in Hs, Hc; nia.
Qed.

(** ** Default formats for a channel count *)

(** C4.  For 1, 2, 3 and 4 channels [GetInternalFormatForChannels8] returns
    R8, RG8, RGB8 and RGBA8 and [GetPixelFormatForChannels] returns Red, RG,
    RGB and RGBA, reporting nothing. *)
Theorem ForChannels_supported :
  returns (GetInternalFormatForChannels8 1) InternalFormat.R8 []
  /\ returns (GetInternalFormatForChannels8 2) InternalFormat.RG8 []
  /\ returns (GetInternalFormatForChannels8 3) InternalFormat.RGB8 []
  /\ returns (GetInternalFormatForChannels8 4) InternalFormat.RGBA8 []
  /\ returns (GetPixelFormatForChannels 1) PixelFormat.Red []
  /\ returns (GetPixelFormatForChannels 2) PixelFormat.RG []
  /\ returns (GetPixelFormatForChannels 3) PixelFormat.RGB []
  /\ returns (GetPixelFormatForChannels 4) PixelFormat.RGBA [].
Proof.
  repeat apply conj; returns_by_evaluation.
Qed.

(** C5.  For every channel count outside 1 to 4, both helpers return their
    [Unknown] value; all they do besides is report one warning. *)
Theorem ForChannels_unsupported (n : Z) (H : n < 1 \/ 4 < n) :
  returns (GetInternalFormatForChannels8 n) InternalFormat.Unknown
    [Warning "Unsupported texture format with {0} channels" n]
  /\ returns (GetPixelFormatForChannels n) PixelFormat.Unknown
       [Warning "Unsupported texture format with {0} channels" n].
Proof.
  split; intro log; unfold_helpers; switch_on n; try lia; reflexivity.
Qed.

Lemma ForChannels_unsupported_witness :
  ((0 < 1 \/ 4 < 0)
   /\ returns (GetInternalFormatForChannels8 0) InternalFormat.Unknown
        [Warning "Unsupported texture format with {0} channels" 0]
   /\ returns (GetPixelFormatForChannels 0) PixelFormat.Unknown
        [Warning "Unsupported texture format with {0} channels" 0])
  /\ ((5 < 1 \/ 4 < 5)
      /\ returns (GetInternalFormatForChannels8 5) InternalFormat.Unknown
           [Warning "Unsupported texture format with {0} channels" 5]
      /\ returns (GetPixelFormatForChannels 5) PixelFormat.Unknown
           [Warning "Unsupported texture format with {0} channels" 5])
  /\ ((-1 < 1 \/ 4 < -1)
      /\ returns (GetInternalFormatForChannels8 (-1)) InternalFormat.Unknown
           [Warning "Unsupported texture format with {0} channels" (-1)]
      /\ returns (GetPixelFormatForChannels (-1)) PixelFormat.Unknown
           [Warning "Unsupported texture format with {0} channels" (-1)]).
Proof.
  assert (H0 : 0 < 1 \/ 4 < 0) by (left; reflexivity).
  assert (H5 : 5 < 1 \/ 4 < 5) by (right; reflexivity).
  assert (Hm : -1 < 1 \/ 4 < -1) by (left; reflexivity).
  exact (conj (conj H0 (ForChannels_unsupported 0 H0))
           (conj (conj H5 (ForChannels_unsupported 5 H5))
              (conj Hm (ForChannels_unsupported (-1) Hm)))).
Defined.

(** C8.  For a channel count [n] from 1 to 4, the component count of the
    default pixel format for [n] channels is [n] again, and nothing is
    reported on the way. *)
Theorem channels_roundtrip (n : Z) (H : 1 <= n <= 4) :
  returns (format <- GetPixelFormatForChannels n ;;
           GetTexelComponentCount format) n [].
Proof.
  assert (n = 1 \/ n = 2 \/ n = 3 \/ n = 4) as [-> | [-> | [-> | ->]]] by lia;
    intro log; cbn; now rewrite app_nil_r.
Qed.

Lemma channels_roundtrip_witness :
  1 <= 3 <= 4
  /\ returns (format <- GetPixelFormatForChannels 3 ;;
              GetTexelComponentCount format) 3 [].
Proof.
  assert (H : 1 <= 3 <= 4) by lia.
  exact (conj H (channels_roundtrip 3 H)).
Defined.

(** C9.  For every integer [n], each of the two helpers returns its [Unknown]
    value exactly when [n] is not one of 1, 2, 3, 4; so the two agree on
    which channel counts are supported. *)
Theorem ForChannels_Unknown_iff (n : Z) (log : Logger) :
  (value (GetInternalFormatForChannels8 n) log = InternalFormat.Unknown
   <-> ~ In n [1; 2; 3; 4])
  /\ (value (GetPixelFormatForChannels n) log = PixelFormat.Unknown
      <-> ~ In n [1; 2; 3; 4])
  /\ (value (GetInternalFormatForChannels8 n) log = InternalFormat.Unknown
      <-> value (GetPixelFormatForChannels n) log = PixelFormat.Unknown).
Proof.
  unfold value, GetInternalFormatForChannels8, GetPixelFormatForChannels.
  cbn [In].
  switch_on n;
    repeat split; intros; try discriminate; try reflexivity; try lia;
    exfalso; intuition (discriminate || lia).
Qed.

(** ** Determinism *)

(** C7.  Each of the five helpers is deterministic: the value of a call
    depends on the argument alone, so a second call on the same argument
    returns the value the first one returned, whatever the argument and
    whatever has been logged in between. *)
Theorem helpers_deterministic :
  deterministic GetTexelComponentSize
  /\ deterministic GetInternalFormatForChannels8
  /\ deterministic GetPixelFormatForChannels
  /\ deterministic GetTexelComponentCount
  /\ deterministic (fun args => GetTexelSize (fst args) (snd args)).
Proof.
  repeat apply conj; apply returns_deterministic; intro x.
  - eexists _, _. apply GetTexelComponentSize_returns.
  - eexists _, _. apply GetInternalFormatForChannels8_returns.
  - eexists _, _. apply GetPixelFormatForChannels_returns.
  - eexists _, _. apply GetTexelComponentCount_returns.
  - eexists _, _. apply GetTexelSize_returns.
Qed.

(** * Further properties of the helpers *)

(** ** Zero is the error value of the two lookups *)


Lemma PixelFormat_eq_raw (a b : PixelFormat.t) :
  a = b <-> PixelFormat.raw a = PixelFormat.raw b.
Proof.
  destruct a as [x], b as [y]. cbn. split; [now intros [= ->] | now intros ->].
Qed.

Lemma InternalFormat_eq_raw (a b : InternalFormat.t) :
  a = b <-> InternalFormat.raw a = InternalFormat.raw b.
Proof.
  destruct a as [x], b as [y]. cbn. split; [now intros [= ->] | now intros ->].
Qed.







(** ** Texel sizes *)


(** X4.  The sizes [GetTexelSize] can return are exactly 0, 1, 2, 3, 4, 6, 8,
    12 and 16: each of them is the size of some format and type, and no other
    value is. *)
Theorem GetTexelSize_image (v : Z) (log : Logger) :
  In v [0; 1; 2; 3; 4; 6; 8; 12; 16]
  <-> exists (format : PixelFormat.t) (type : PixelType.t),
      value (GetTexelSize format type) log = v.
Proof.
  split.
  - assert (E : forall format type,
               value (GetTexelSize format type) log
               = value (GetTexelSize format type) []).
    { intros format type.
      now rewrite !(returns_value _ _ _ (GetTexelSize_returns format type)). }
    cbn [In].
    intros [<- | [<- | [<- | [<- | [<- | [<- | [<- | [<- | [<- | []]]]]]]]]].
    + exists PixelFormat.Unknown, PixelType.UByte. now rewrite E.
    + exists PixelFormat.Red, PixelType.UByte. now rewrite E.
    + exists PixelFormat.RG, PixelType.UByte. now rewrite E.
    + exists PixelFormat.RGB, PixelType.UByte. now rewrite E.
    + exists PixelFormat.RGBA, PixelType.UByte. now rewrite E.
    + exists PixelFormat.RGB, PixelType.UShort. now rewrite E.
    + exists PixelFormat.RGBA, PixelType.UShort. now rewrite E.
    + exists PixelFormat.RGB, PixelType.UInt. now rewrite E.
    + exists PixelFormat.RGBA, PixelType.UInt. now rewrite E.
  - intros (format & type & <-).
    rewrite GetTexelSize_value.
    pose proof (GetTexelComponentSize_values type log) as Hs.
    pose proof (GetTexelComponentCount_values format log) as Hc.
    cbn [In] in *.
    destruct Hs as [<- | [<- | [<- | [<- | []]]]];
      destruct Hc as [<- | [<- | [<- | [<- | [<- | []]]]]]; cbn; tauto.
Qed.

(** X5.  The value of [GetTexelSize] does not depend on which operand of the
    product is evaluated first, and neither does what is reported, up to the
    order of the diagnostics; either way the earlier content of the log is
    kept. *)
Theorem GetTexelSize_evaluation_order (format : PixelFormat.t)
  (type : PixelType.t) (log : Logger) :
  value (GetTexelSize_count_first format type) log
  = value (GetTexelSize format type) log
  /\ Permutation (reported (GetTexelSize_count_first format type))
       (reported (GetTexelSize format type))
  /\ snd (GetTexelSize_count_first format type log)
     = log ++ reported (GetTexelSize_count_first format type)
  /\ snd (GetTexelSize format type log)
     = log ++ reported (GetTexelSize format type).
Proof.
  pose proof (GetTexelSize_returns format type) as H1.
  assert (H2 : returns (GetTexelSize_count_first format type)
                 (size_t_mul (value (GetTexelComponentSize type) [])
                    (size_t_of_GLint
                       (value (GetTexelComponentCount format) [])))
                 (reported (GetTexelComponentCount format)
                  ++ reported (GetTexelComponentSize type))).
  { unfold GetTexelSize_count_first.
    eapply returns_bind; [apply GetTexelComponentCount_returns |].
    rewrite <- (app_nil_r (reported (GetTexelComponentSize type))).
    eapply returns_bind; [apply GetTexelComponentSize_returns |].
    apply returns_ret. }
  rewrite (returns_value _ _ _ H1), (returns_value _ _ _ H2).
  rewrite (returns_reported _ _ _ H1), (returns_reported _ _ _ H2).
  rewrite H1, H2. cbn [snd].
  repeat split. apply Permutation_app_comm.
Qed.

(** ** Channel counts *)

(** X6.  An unsupported channel count carries through to the component
    count: the pixel format comes back [Unknown], [GetTexelComponentCount]
    has no case for it and returns 0, and the log gains the warning followed
    by the failed assertion on the raw value [GL_NONE]. *)
Theorem unsupported_channels_count_zero (n : Z) (H : n < 1 \/ 4 < n) :
  returns (format <- GetPixelFormatForChannels n ;;
           GetTexelComponentCount format) 0
    [Warning "Unsupported texture format with {0} channels" n;
     AssertFailure "Unknown format: {}" GL.NONE].
Proof.
  intro log. unfold bind. unfold_helpers. switch_on n; try lia.
  now rewrite <- app_assoc.
Qed.

Lemma unsupported_channels_count_zero_witness :
  (7 < 1 \/ 4 < 7)
  /\ returns (format <- GetPixelFormatForChannels 7 ;;
              GetTexelComponentCount format) 0
       [Warning "Unsupported texture format with {0} channels" 7;
        AssertFailure "Unknown format: {}" GL.NONE].
Proof.
  assert (H : 7 < 1 \/ 4 < 7) by (right; reflexivity).
  exact (conj H (unsupported_channels_count_zero 7 H)).
Defined.




(** X8.  A supported channel count can be read back from either default
    format: for [n] from 1 to 4, another count [m] gets the same pixel
    format, or the same internal format, only if [m] is [n]. *)
Theorem ForChannels_injective (n m : Z) (log log' : Logger)
  (H : 1 <= n <= 4) :
  (value (GetPixelFormatForChannels n) log
   = value (GetPixelFormatForChannels m) log' <-> n = m)
  /\ (value (GetInternalFormatForChannels8 n) log
      = value (GetInternalFormatForChannels8 m) log' <-> n = m).
Proof.
  rewrite PixelFormat_eq_raw, InternalFormat_eq_raw.
  unfold value. unfold_helpers.
  assert (n = 1 \/ n = 2 \/ n = 3 \/ n = 4) as [-> | [-> | [-> | ->]]] by lia;
    cbn; switch_on m; split; split; intros; try reflexivity;
    try discriminate; try lia.
Qed.

Lemma ForChannels_injective_witness :
  1 <= 2 <= 4
  /\ (value (GetPixelFormatForChannels 2) []
      = value (GetPixelFormatForChannels 3) [] <-> 2 = 3)
  /\ (value (GetInternalFormatForChannels8 2) []
      = value (GetInternalFormatForChannels8 3) [] <-> 2 = 3).
Proof.
  assert (H : 1 <= 2 <= 4) by lia.
  exact (conj H (ForChannels_injective 2 3 [] [] H)).
Defined.

(** X9.  Each of the two channel helpers reports exactly when it returns
    [Unknown]: nothing for a supported count, and one warning otherwise.  For
    any count the two report the same, and neither touches what the log
    already holds. *)
Theorem ForChannels_warning_iff_Unknown (n : Z) (log : Logger) :
  (reported (GetPixelFormatForChannels n) = []
   <-> value (GetPixelFormatForChannels n) log <> PixelFormat.Unknown)
  /\ (reported (GetInternalFormatForChannels8 n) = []
      <-> value (GetInternalFormatForChannels8 n) log
          <> InternalFormat.Unknown)
  /\ reported (GetInternalFormatForChannels8 n)
     = reported (GetPixelFormatForChannels n)
  /\ (List.length (reported (GetPixelFormatForChannels n)) <= 1)%nat
  /\ snd (GetPixelFormatForChannels n log)
     = log ++ reported (GetPixelFormatForChannels n)
  /\ snd (GetInternalFormatForChannels8 n log)
     = log ++ reported (GetInternalFormatForChannels8 n).
Proof.
  rewrite PixelFormat_eq_raw, InternalFormat_eq_raw.
  unfold value, reported. unfold_helpers.
  switch_on n; rewrite ?app_nil_r;
    repeat split; intros; try reflexivity; try discriminate; try lia;
    try tauto.
Qed.
